(** * minilm_embed.py: the embedding command-line script

    A shallow embedding of [leo2/core/memory/embeddings/minilm_embed.py]
    and the properties of its observable behaviour: what it prints on
    standard output and the status it exits with.

    The script is straight-line Python with two [try] statements.  It is
    modelled in a small monad [Py] that threads standard output and
    carries the two ways a Python statement ends abruptly: a raised
    exception, or [SystemExit] from [sys.exit].  The third-party calls
    ([json.loads], [int], the import of [sentence_transformers], the
    model constructor and [encode]) are inputs of the model: each is a
    function returning a value or raising.  The interpreter is a 64-bit
    CPython: a repetition count must fit [Py_ssize_t].  Memory is
    unbounded, so no allocation raises [MemoryError], and writing to
    standard output does not fail. *)

From Stdlib Require Import ZArith String List Bool Lia PrimFloat.
From ExtLib Require Import Structures.Monad.
Import ListNotations.
Import MonadNotation.
Local Open Scope monad_scope.
Local Open Scope Z_scope.

Set Implicit Arguments.
Set Warnings "-register-all".

(** ** Python values and exceptions *)

(** Classes of the exceptions the script can meet.  All of them derive
    from [Exception], which is what [except Exception] matches;
    [ModuleNotFoundError] derives from [ImportError], [JSONDecodeError]
    from [ValueError], [OverflowError] from [ArithmeticError].
    [OtherException] stands for any other class
    derived from [Exception] and not from [ImportError] ([OSError],
    [RuntimeError], ...).  [KeyboardInterrupt] and a [SystemExit] raised
    by a library are outside the model. *)
Inductive exn_class : Type :=
| ImportError
| ModuleNotFoundError
| IndexError
| TypeError
| ValueError
| JSONDecodeError
| OverflowError
| OtherException (name : string).

Record exn : Type := Exn { exn_cls : exn_class; exn_msg : string }.

(** [isinstance(e, ImportError)], the test of [except ImportError]. *)
Definition is_ImportError (e : exn) : bool :=
  match exn_cls e with
  | ImportError | ModuleNotFoundError => true
  | _ => false
  end.

(** [isinstance(e, Exception)], the test of [except Exception]. *)
Definition is_Exception (e : exn) : bool := true.

(** The result of a call: it returns or it raises. *)
Inductive result (A : Type) : Type :=
| Returns (x : A)
| Raises (e : exn).
Arguments Returns {A} x.
Arguments Raises {A} e.

(** What [json.loads] returns: [None], [bool], [int], [float], [str],
    [list] or [dict].  A [dict] is kept as its items, keys distinct; a
    [str] holds one character per element. *)
Inductive json : Type :=
| JNone
| JBool (b : bool)
| JInt (n : Z)
| JFloat (x : float)
| JStr (s : string)
| JList (l : list json)
| JDict (items : list (string * json)).

(** [len(v)]. *)
Definition py_len (v : json) : result nat :=
  match v with
  | JStr s => Returns (String.length s)
  | JList l => Returns (List.length l)
  | JDict items => Returns (List.length items)
  | JNone | JBool _ | JInt _ | JFloat _ =>
      Raises (Exn TypeError "object has no len()")
  end.

(** The bounds of [Py_ssize_t]. *)
Definition PY_SSIZE_T_MAX : Z := 9223372036854775807.
Definition PY_SSIZE_T_MIN : Z := -9223372036854775808.

(** [n] converts to a [Py_ssize_t]. *)
Definition fits_ssize_t (n : Z) : bool :=
  (PY_SSIZE_T_MIN <=? n) && (n <=? PY_SSIZE_T_MAX).

(** The [OverflowError] of a count that does not fit. *)
Definition overflow : exn :=
  Exn OverflowError "cannot fit 'int' into an index-sized integer".

(** [l] repeated [n] times, for a count that is a length. *)
Definition list_times {A : Type} (l : list A) (n : nat) : list A :=
  concat (repeat l n).

(** [l * n], repetition of a list by a Python [int].  The count is
    first converted to a [Py_ssize_t], which raises [OverflowError] when
    it does not fit; a count [n <= 0] gives the empty list. *)
Definition list_mul {A : Type} (l : list A) (n : Z) : result (list A) :=
  if fits_ssize_t n then Returns (list_times l (Z.to_nat n))
  else Raises overflow.

(** [v[:stop]]: a negative [stop] counts from the end, and the bound is
    clipped to the length of [v]. *)
Definition slice_to {A : Type} (v : list A) (stop : Z) : list A :=
  let n := Z.of_nat (List.length v) in
  let stop' := if stop <? 0 then Z.max (n + stop) 0 else Z.min stop n in
  firstn (Z.to_nat stop') v.

(** A component of the array [encode] returns, a [numpy.float32]; it is
    kept as the binary64 number it denotes, which is what [float] gives
    back. *)
Record np_float32 : Type := F32 { f32_value : float }.

(** [float(x)]. *)
Definition py_float (x : np_float32) : float := f32_value x.

(** ** The environment of one invocation *)

(** The built-ins the script parses its arguments with. *)
Record PyLib : Type := {
  json_loads : string -> result json;
  py_int : string -> result Z
}.

(** A loaded model: its [encode] method, from the decoded texts to one
    vector per text.  A result the comprehension could not iterate and
    slice raises inside the same [try] block, and is covered by
    [Raises]. *)
Record Model : Type := {
  encode : json -> result (list (list np_float32))
}.

(** [from sentence_transformers import SentenceTransformer]: it raises,
    or binds the model constructor. *)
Record Env : Type := {
  import_SentenceTransformer : result (string -> result Model)
}.

(** ** The monad of the script *)

(** One line of standard output: [print(json.dumps(d))] writes the
    document [d] on one line ([json.dumps] is given no [indent], so it
    emits no line break, and [print] ends the line). *)
Definition line : Type := list (list float).

Inductive signal : Type :=
| Raised (e : exn)
| SystemExit (code : Z).

Inductive completion (A : Type) : Type :=
| Normal (x : A)
| Abrupt (s : signal).
Arguments Normal {A} x.
Arguments Abrupt {A} s.

Definition Py (A : Type) : Type := list line -> completion A * list line.

#[export] Instance Monad_Py : Monad Py := {
  ret := fun _ x out => (Normal x, out);
  bind := fun _ _ c k out =>
    match c out with
    | (Normal x, out') => k x out'
    | (Abrupt s, out') => (Abrupt s, out')
    end
}.

Definition raise {A : Type} (e : exn) : Py A :=
  fun out => (Abrupt (Raised e), out).

(** A call into a library. *)
Definition call {A : Type} (r : result A) : Py A :=
  match r with
  | Returns x => ret x
  | Raises e => raise e
  end.

Definition print (d : line) : Py unit :=
  fun out => (Normal tt, out ++ [d]).

(** [sys.exit(code)]. *)
Definition sys_exit {A : Type} (code : Z) : Py A :=
  fun out => (Abrupt (SystemExit code), out).

(** [try: body / except C as e: handler e], with [catches] the test of
    the class [C].  What the body wrote before it raised stays
    written. *)
Definition try_except {A : Type} (body : Py A) (catches : exn -> bool)
    (handler : exn -> Py A) : Py A :=
  fun out =>
    match body out with
    | (Abrupt (Raised e), out') =>
        if catches e then handler e out' else (Abrupt (Raised e), out')
    | r => r
    end.

(** ** The script *)

Section Script.

Variable lib : PyLib.
Variable env : Env.
(** [sys.argv], the script's own name first. *)
Variable argv : list string.

(** [sys.argv[i]]. *)
Definition sys_argv (i : nat) : Py string :=
  match nth_error argv i with
  | Some s => ret s
  | None => raise (Exn IndexError "list index out of range")
  end.

(** Lines 5-9.  In line 8 the left operand [[[0.0]*int(sys.argv[3])]]
    is evaluated first, its repetition included, then
    [len(json.loads(sys.argv[1]))]; that count is a length, which always
    fits [Py_ssize_t], so the outer repetition does not raise. *)
Definition import_block : Py (string -> result Model) :=
  try_except
    (call (import_SentenceTransformer env))
    is_ImportError
    (fun _ =>
       a3 <- sys_argv 3 ;;
       d <- call (py_int lib a3) ;;
       zeros <- call (list_mul [0%float] d) ;;
       a1 <- sys_argv 1 ;;
       t <- call (json_loads lib a1) ;;
       n <- call (py_len t) ;;
       print (list_times [zeros] n) ;;
       sys_exit 0).

(** Lines 13-21.  In line 20 [[0.0]*dim] is evaluated before
    [len(texts)]. *)
Definition embed_block (SentenceTransformer : string -> result Model)
    (texts : json) (model_name : string) (dim : Z) : Py unit :=
  try_except
    (model <- call (SentenceTransformer model_name) ;;
     vectors <- call (encode model texts) ;;
     let vectors := map (fun v => map py_float (slice_to v dim)) vectors in
     print vectors)
    is_Exception
    (fun e =>
       zeros <- call (list_mul [0%float] dim) ;;
       n <- call (py_len texts) ;;
       print (list_times [zeros] n) ;;
       sys_exit 0).

(** The whole module, top to bottom. *)
Definition main : Py unit :=
  SentenceTransformer <- import_block ;;
  a1 <- sys_argv 1 ;;
  texts <- call (json_loads lib a1) ;;
  model_name <- sys_argv 2 ;;
  a3 <- sys_argv 3 ;;
  dim <- call (py_int lib a3) ;;
  embed_block SentenceTransformer texts model_name dim.

End Script.

(** ** What the caller observes *)

(** Standard output, the exit status, and the exception that ended the
    process, if one did.  An exception no handler caught makes the
    interpreter exit with status 1; reaching the end of the module is
    status 0. *)
Record outcome : Type := {
  stdout : list line;
  exit_status : Z;
  uncaught : option exn
}.

Definition run (lib : PyLib) (env : Env) (argv : list string) : outcome :=
  match main lib env argv [] with
  | (Normal _, out) =>
      {| stdout := out; exit_status := 0; uncaught := None |}
  | (Abrupt (SystemExit code), out) =>
      {| stdout := out; exit_status := code; uncaught := None |}
  | (Abrupt (Raised e), out) =>
      {| stdout := out; exit_status := 1; uncaught := Some e |}
  end.

(** ** The paths through the script *)

(** The three arguments decode: [json.loads(sys.argv[1])] and
    [int(sys.argv[3])] return, and [sys.argv[2]] is there. *)
Definition decodes (lib : PyLib) (argv : list string)
    (texts : json) (model_name : string) (dim : Z) : Prop :=
  exists a1 a3,
    nth_error argv 1 = Some a1 /\ json_loads lib a1 = Returns texts /\
    nth_error argv 2 = Some model_name /\
    nth_error argv 3 = Some a3 /\ py_int lib a3 = Returns dim.

(** The three causes of the zero fallback. *)
Inductive failure_cause (env : Env) (model_name : string) (texts : json)
  : Prop :=
| library_unavailable e :
    import_SentenceTransformer env = Raises e ->
    is_ImportError e = true ->
    failure_cause env model_name texts
| load_exception SentenceTransformer e :
    import_SentenceTransformer env = Returns SentenceTransformer ->
    SentenceTransformer model_name = Raises e ->
    failure_cause env model_name texts
| inference_exception SentenceTransformer model e :
    import_SentenceTransformer env = Returns SentenceTransformer ->
    SentenceTransformer model_name = Returns model ->
    encode model texts = Raises e ->
    failure_cause env model_name texts.

(** Loading and inference both succeed, and [encode] returns [vs]. *)
Definition succeeds (env : Env) (model_name : string) (texts : json)
    (vs : list (list np_float32)) : Prop :=
  exists SentenceTransformer model,
    import_SentenceTransformer env = Returns SentenceTransformer /\
    SentenceTransformer model_name = Returns model /\
    encode model texts = Returns vs.

(** [[[0.0]*dim]*n]. *)
Definition zero_fallback (n : nat) (dim : Z) : line :=
  repeat (repeat 0%float (Z.to_nat dim)) n.

(** The comprehension of line 17. *)
Definition truncated (dim : Z) (vs : list (list np_float32)) : line :=
  map (fun v => map py_float (slice_to v dim)) vs.

Definition printed (d : line) : outcome :=
  {| stdout := [d]; exit_status := 0; uncaught := None |}.

Definition crashed (e : exn) : outcome :=
  {| stdout := []; exit_status := 1; uncaught := Some e |}.

(** Every run takes one of three paths: an exception escapes and nothing
    is printed; the zero fallback is printed; the truncated vectors of
    the model are printed. *)
Inductive path (lib : PyLib) (env : Env) (argv : list string)
  : outcome -> Prop :=
| path_crash e :
    path lib env argv (crashed e)
| path_fallback texts model_name dim n :
    decodes lib argv texts model_name dim ->
    failure_cause env model_name texts ->
    fits_ssize_t dim = true ->
    py_len texts = Returns n ->
    path lib env argv (printed (zero_fallback n dim))
| path_success texts model_name dim vs :
    decodes lib argv texts model_name dim ->
    succeeds env model_name texts vs ->
    path lib env argv (printed (truncated dim vs)).

(** ** The properties at stake *)

(** Every vector of the model has at least [dim] components. *)
Definition at_least_dim (env : Env) (model_name : string) (texts : json)
    (dim : Z) : Prop :=
  forall vs, succeeds env model_name texts vs ->
             Forall (fun v => dim <= Z.of_nat (List.length v)) vs.


(** Every vector printed has as many components as the dimension
    argument says. *)
Definition every_vector_has_dimension (lib : PyLib) (env : Env)
    (argv : list string) : Prop :=
  forall a3 dim doc v,
    nth_error argv 3 = Some a3 -> py_int lib a3 = Returns dim ->
    In doc (stdout (run lib env argv)) -> In v doc ->
    Z.of_nat (List.length v) = dim.

(** ** A sample environment

    What [json.loads] and [int] return at the well-formed arguments of
    the examples, every other string standing for a malformed argument;
    a library that is missing; and an installed one with a model of
    three components and a model whose [encode] raises. *)

Module Sample.

Definition dquote : string := String (Ascii.ascii_of_nat 34) EmptyString.

Definition quoted (s : string) : string := (dquote ++ s ++ dquote)%string.

(** The argument [["hello", "world"]]. *)
Definition hello_world : string :=
  ("[" ++ quoted "hello" ++ ", " ++ quoted "world" ++ "]")%string.

Definition loads (s : string) : result json :=
  if (s =? hello_world)%string then
    Returns (JList [JStr "hello"; JStr "world"])
  else if (s =? "[]")%string then Returns (JList [])
  else Raises (Exn JSONDecodeError "Expecting value").

Definition int (s : string) : result Z :=
  if (s =? "4")%string then Returns 4
  else if (s =? "2")%string then Returns 2
  else if (s =? "0")%string then Returns 0
  else if (s =? "-1")%string then Returns (-1)
  else Raises (Exn ValueError "invalid literal for int() with base 10").

Definition lib : PyLib := {| json_loads := loads; py_int := int |}.

Definition missing : Env :=
  {| import_SentenceTransformer :=
       Raises (Exn ModuleNotFoundError
                   "No module named sentence_transformers") |}.

Definition vector3 : list np_float32 :=
  [F32 0.5%float; F32 0.25%float; F32 0.125%float].

Definition model3 : Model :=
  {| encode := fun texts =>
       match texts with
       | JList l => Returns (map (fun _ => vector3) l)
       | _ => Raises (Exn TypeError "not a list of sentences")
       end |}.

Definition failing_model : Model :=
  {| encode := fun _ =>
       Raises (Exn (OtherException "RuntimeError") "out of memory") |}.

(** The constructor of the installed library: two model names are
    known to it. *)
Definition SentenceTransformer (name : string) : result Model :=
  if (name =? "three")%string then Returns model3
  else if (name =? "failing")%string then Returns failing_model
  else Raises (Exn (OtherException "OSError") "not a valid model identifier").

Definition installed : Env :=
  {| import_SentenceTransformer := Returns SentenceTransformer |}.

Definition argv (texts model_name dim : string) : list string :=
  ["minilm_embed.py"%string; texts; model_name; dim].

End Sample.


(** ** Further sample values

    Arguments that are valid JSON but no list, dimensions just outside
    [Py_ssize_t], an installation whose import raises something else
    than [ImportError], and models that return zeros or a single
    vector. *)

Module Edge.

(** [json.loads] at [5] and at ["abc"], and as in [Sample] elsewhere. *)
Definition loads_values (s : string) : result json :=
  if (s =? "5")%string then Returns (JInt 5)
  else if (s =? Sample.quoted "abc")%string then Returns (JStr "abc")
  else Sample.loads s.

(** [int] at [2**63] and at [-2**63 - 1], and as in [Sample]
    elsewhere. *)
Definition int_values (s : string) : result Z :=
  if (s =? "9223372036854775808")%string then Returns 9223372036854775808
  else if (s =? "-9223372036854775809")%string
       then Returns (-9223372036854775809)
       else Sample.int s.

Definition lib_values : PyLib :=
  {| json_loads := loads_values; py_int := int_values |}.

Definition broken : Env :=
  {| import_SentenceTransformer :=
       Raises (Exn (OtherException "OSError")
                   "cannot open shared object file") |}.

(** An installed library whose models return zeros, three per text. *)
Definition zero_model : Model :=
  {| encode := fun texts =>
       match texts with
       | JList l =>
           Returns (repeat (repeat (F32 0%float) 3) (List.length l))
       | _ => Raises (Exn TypeError "not a list of sentences")
       end |}.

Definition zeros_installed : Env :=
  {| import_SentenceTransformer := Returns (fun _ => Returns zero_model) |}.



End Edge.

(** ** Running the script *)

(** Unfold the script and rewrite with what is known of the calls. *)
Ltac run_script :=
  unfold run, main, import_block, embed_block, try_except, sys_argv, call,
    list_mul, print, sys_exit, raise, is_Exception; simpl.

#[local] Arguments nth_error : simpl never.
#[local] Arguments fits_ssize_t : simpl never.

Ltac use_eqs :=
  repeat (simpl;
          match goal with
          | H : _ = Some _ |- _ => rewrite H
          | H : _ = None |- _ => rewrite H
          | H : _ = Returns _ |- _ => rewrite H
          | H : _ = Raises _ |- _ => rewrite H
          | H : _ = true |- _ => rewrite H
          | H : _ = false |- _ => rewrite H
          end).

Ltac by_running := run_script; use_eqs; try reflexivity.

Lemma list_times_singleton (A : Type) (x : A) (n : nat) :
  list_times [x] n = repeat x n.
Proof.
  unfold list_times. induction n as [|k IH]; simpl; [reflexivity|].
  now rewrite IH.
Qed.

Lemma fallback_document (n : nat) (dim : Z) :
  list_times [list_times [0%float] (Z.to_nat dim)] n = zero_fallback n dim.
Proof.
  rewrite !list_times_singleton. reflexivity.
Qed.

Lemma run_fallback lib env argv texts model_name dim n :
  decodes lib argv texts model_name dim ->
  failure_cause env model_name texts ->
  fits_ssize_t dim = true ->
  py_len texts = Returns n ->
  run lib env argv = printed (zero_fallback n dim).
Proof.
  intros (a1 & a3 & H1 & Ht & H2 & H3 & Hd) Hc Hfit Hn.
  destruct Hc as [e Hi He | ST e Hi Hl | ST m e Hi Hl Hr]; by_running;
    now rewrite fallback_document.
Qed.

(** [len(texts)] raises in the handler itself: nothing catches it. *)
Lemma run_fallback_no_len lib env argv texts model_name dim e :
  decodes lib argv texts model_name dim ->
  failure_cause env model_name texts ->
  fits_ssize_t dim = true ->
  py_len texts = Raises e ->
  run lib env argv = crashed e.
Proof.
  intros (a1 & a3 & H1 & Ht & H2 & H3 & Hd) Hc Hfit Hn.
  destruct Hc as [e' Hi He | ST e' Hi Hl | ST m e' Hi Hl Hr]; by_running.
Qed.

(** [[0.0]*dim] raises in the handler itself, before [len(texts)] is
    evaluated. *)
Lemma run_fallback_overflow lib env argv texts model_name dim :
  decodes lib argv texts model_name dim ->
  failure_cause env model_name texts ->
  fits_ssize_t dim = false ->
  run lib env argv = crashed overflow.
Proof.
  intros (a1 & a3 & H1 & Ht & H2 & H3 & Hd) Hc Hfit.
  destruct Hc as [e' Hi He | ST e' Hi Hl | ST m e' Hi Hl Hr]; by_running.
Qed.

Lemma run_success lib env argv texts model_name dim vs :
  decodes lib argv texts model_name dim ->
  succeeds env model_name texts vs ->
  run lib env argv = printed (truncated dim vs).
Proof.
  intros (a1 & a3 & H1 & Ht & H2 & H3 & Hd) (ST & m & Hi & Hl & Hr).
  by_running.
Qed.

(** An import that raises something else than [ImportError] ends the
    process. *)
Lemma run_import_crash lib env argv e :
  import_SentenceTransformer env = Raises e ->
  is_ImportError e = false ->
  run lib env argv = crashed e.
Proof. intros Hi He. by_running. Qed.

Lemma nth_error_before (A : Type) (l : list A) (i : nat) (x : A) :
  nth_error l (S i) = Some x -> exists y, nth_error l i = Some y.
Proof.
  intros H. destruct (nth_error l i) as [y|] eqn:E; [now exists y|].
  apply nth_error_None in E.
  assert (nth_error l (S i) = None) as E' by (apply nth_error_None; lia).
  congruence.
Qed.

Lemma run_path lib env argv : path lib env argv (run lib env argv).
Proof.
  assert (forall e, run lib env argv = crashed e ->
                    path lib env argv (run lib env argv)) as crash
      by (intros e ->; constructor).
  assert (forall texts name dim,
             decodes lib argv texts name dim ->
             failure_cause env name texts ->
             path lib env argv (run lib env argv)) as fallback.
  { intros texts name dim D F.
    destruct (fits_ssize_t dim) eqn:Hfit;
      [|rewrite (run_fallback_overflow D F Hfit); constructor].
    destruct (py_len texts) as [n|en] eqn:Hn.
    - rewrite (run_fallback D F Hfit Hn).
      now apply path_fallback with texts name.
    - rewrite (run_fallback_no_len D F Hfit Hn). constructor. }
  destruct (import_SentenceTransformer env) as [ST|ei] eqn:Hi.
  - (* the library is there: lines 10-21 *)
    destruct (nth_error argv 1) as [a1|] eqn:H1;
      [|eapply crash; by_running].
    destruct (json_loads lib a1) as [texts|et] eqn:Ht;
      [|eapply crash; by_running].
    destruct (nth_error argv 2) as [name|] eqn:H2;
      [|eapply crash; by_running].
    destruct (nth_error argv 3) as [a3|] eqn:H3;
      [|eapply crash; by_running].
    destruct (py_int lib a3) as [dim|ed] eqn:Hd;
      [|eapply crash; by_running].
    assert (decodes lib argv texts name dim) as D by (exists a1, a3; auto).
    destruct (ST name) as [m|el] eqn:Hl;
      [|eapply fallback; [exact D | eapply load_exception; eauto]].
    destruct (encode m texts) as [vs|er] eqn:Hr;
      [|eapply fallback; [exact D | eapply inference_exception; eauto]].
    assert (succeeds env name texts vs) as S by (now exists ST, m).
    rewrite (run_success D S). now apply path_success with texts name.
  - destruct (is_ImportError ei) eqn:He;
      [|now apply crash with ei, run_import_crash].
    (* the library is missing: lines 8-9 *)
    destruct (nth_error argv 3) as [a3|] eqn:H3;
      [|eapply crash; by_running].
    destruct (py_int lib a3) as [dim|ed] eqn:Hd;
      [|eapply crash; by_running].
    destruct (nth_error_before _ _ H3) as [name H2].
    destruct (nth_error_before _ _ H2) as [a1 H1].
    destruct (json_loads lib a1) as [texts|et] eqn:Ht;
      [|destruct (fits_ssize_t dim) eqn:Hfit; eapply crash; by_running].
    eapply fallback; [|eapply library_unavailable; eauto].
    exists a1, a3; eauto.
Qed.

(** ** Facts about the paths *)

Lemma decodes_inj lib argv texts name dim texts' name' dim' :
  decodes lib argv texts name dim ->
  decodes lib argv texts' name' dim' ->
  texts' = texts /\ name' = name /\ dim' = dim.
Proof.
  intros (a1 & a3 & H1 & Ht & H2 & H3 & Hd) (b1 & b3 & G1 & Gt & G2 & G3 & Gd).
  rewrite H1 in G1. injection G1 as <-.
  rewrite H3 in G3. injection G3 as <-.
  rewrite Ht in Gt. rewrite Hd in Gd. rewrite H2 in G2.
  repeat split; congruence.
Qed.

Lemma decodes_dimension lib argv texts name dim a3 d :
  decodes lib argv texts name dim ->
  nth_error argv 3 = Some a3 -> py_int lib a3 = Returns d -> d = dim.
Proof.
  intros (a1 & b3 & _ & _ & _ & H3 & Hd) G3 Gd.
  rewrite H3 in G3. injection G3 as <-. congruence.
Qed.

Lemma failure_excludes_success env name texts vs :
  failure_cause env name texts -> succeeds env name texts vs -> False.
Proof.
  intros [e Hi He | ST e Hi Hl | ST m e Hi Hl Hr] (ST' & m' & Gi & Gl & Gr);
    rewrite Hi in Gi; try discriminate; injection Gi as <-;
    rewrite Hl in Gl; try discriminate; injection Gl as <-;
    rewrite Hr in Gr; discriminate.
Qed.

Lemma succeeds_inj env name texts vs vs' :
  succeeds env name texts vs -> succeeds env name texts vs' -> vs' = vs.
Proof.
  intros (ST & m & Hi & Hl & Hr) (ST' & m' & Gi & Gl & Gr).
  rewrite Hi in Gi. injection Gi as <-.
  rewrite Hl in Gl. injection Gl as <-.
  congruence.
Qed.

(** What a run with decodable arguments prints, path by path. *)
Lemma run_decoded lib env argv texts name dim (o : outcome) :
  decodes lib argv texts name dim ->
  path lib env argv o ->
  (exists e, o = crashed e) \/
  (exists n, failure_cause env name texts /\ fits_ssize_t dim = true /\
             py_len texts = Returns n /\
             o = printed (zero_fallback n dim)) \/
  (exists vs, succeeds env name texts vs /\ o = printed (truncated dim vs)).
Proof.
  intros D [e | texts' name' dim' n D' F Hfit Hn | texts' name' dim' vs D' S].
  - left. now exists e.
  - destruct (decodes_inj D D') as (-> & -> & ->).
    right; left. now exists n.
  - destruct (decodes_inj D D') as (-> & -> & ->).
    right; right. now exists vs.
Qed.

(** ** Slices and repetitions *)

Lemma fits_ssize_t_spec (n : Z) :
  fits_ssize_t n = true <-> PY_SSIZE_T_MIN <= n <= PY_SSIZE_T_MAX.
Proof.
  unfold fits_ssize_t. rewrite andb_true_iff, !Z.leb_le. reflexivity.
Qed.

Lemma fits_ssize_t_false (n : Z) :
  fits_ssize_t n = false <-> n < PY_SSIZE_T_MIN \/ PY_SSIZE_T_MAX < n.
Proof.
  unfold fits_ssize_t. rewrite andb_false_iff, !Z.leb_gt. reflexivity.
Qed.

Lemma slice_to_firstn (A : Type) (v : list A) (stop : Z) :
  0 <= stop -> slice_to v stop = firstn (Z.to_nat stop) v.
Proof.
  intros H. unfold slice_to.
  destruct (Z.ltb_spec stop 0) as [?|_]; [lia|].
  destruct (Z.le_gt_cases stop (Z.of_nat (List.length v))) as [Hle|Hgt].
  - now rewrite Z.min_l.
  - rewrite Z.min_r, Nat2Z.id by lia.
    rewrite firstn_all. symmetry. apply firstn_all2. lia.
Qed.

Lemma slice_to_length (A : Type) (v : list A) (stop : Z) :
  0 <= stop <= Z.of_nat (List.length v) ->
  List.length (slice_to v stop) = Z.to_nat stop.
Proof.
  intros H. rewrite slice_to_firstn by lia.
  rewrite length_firstn. lia.
Qed.

(** A negative bound drops that many components from the end. *)
Lemma slice_to_negative (A : Type) (v : list A) (stop : Z) :
  stop < 0 ->
  slice_to v stop = firstn (List.length v - Z.to_nat (- stop)) v.
Proof.
  intros H. unfold slice_to.
  destruct (Z.ltb_spec stop 0) as [_|?]; [|lia].
  f_equal. lia.
Qed.

Lemma zero_fallback_vector (n : nat) (dim : Z) (v : list float) :
  In v (zero_fallback n dim) -> v = repeat 0%float (Z.to_nat dim).
Proof. unfold zero_fallback. apply repeat_spec. Qed.


Lemma truncated_nth (dim : Z) (vs : list (list np_float32)) (i : nat) :
  nth_error (truncated dim vs) i =
  option_map (fun v => map py_float (slice_to v dim)) (nth_error vs i).
Proof. unfold truncated. apply nth_error_map. Qed.

Lemma firstn_repeat (A : Type) (x : A) (m k : nat) :
  (m <= k)%nat -> firstn m (repeat x k) = repeat x m.
Proof.
  revert k. induction m as [|m IH]; intros k H; [reflexivity|].
  destruct k as [|k]; [lia|]. simpl. f_equal. apply IH. lia.
Qed.

(** ** Consequences for the output *)

(** A document is printed only when the three arguments decode. *)
Lemma output_decodes lib env argv doc :
  In doc (stdout (run lib env argv)) ->
  exists texts name dim, decodes lib argv texts name dim.
Proof.
  destruct (run_path lib env argv)
    as [e | texts name dim n D _ _ | texts name dim vs D _]; simpl.
  - contradiction.
  - intros _. now exists texts, name, dim.
  - intros _. now exists texts, name, dim.
Qed.

(** A model that returns zeros, at least [dim] of them per text, makes
    the script print what it prints when it falls back. *)
Lemma zero_vectors_look_like_failure lib env argv texts name dim n k :
  decodes lib argv texts name dim ->
  0 <= dim <= Z.of_nat k ->
  succeeds env name texts (repeat (repeat (F32 0%float) k) n) ->
  run lib env argv = printed (zero_fallback n dim).
Proof.
  intros D Hdim S. rewrite (run_success D S).
  unfold truncated, zero_fallback. rewrite map_repeat.
  rewrite slice_to_firstn by lia.
  rewrite firstn_repeat by lia.
  now rewrite map_repeat.
Qed.

(** ** The sample environment at work *)

Lemma sample_decodes (name a3 : string) (dim : Z) :
  Sample.int a3 = Returns dim ->
  decodes Sample.lib (Sample.argv Sample.hello_world name a3)
    (JList [JStr "hello"; JStr "world"]) name dim.
Proof. intros H. exists Sample.hello_world, a3. repeat split. exact H. Qed.

Lemma edge_decodes (name a3 : string) (dim : Z) :
  Edge.int_values a3 = Returns dim ->
  decodes Edge.lib_values (Sample.argv Sample.hello_world name a3)
    (JList [JStr "hello"; JStr "world"]) name dim.
Proof. intros H. exists Sample.hello_world, a3. repeat split. exact H. Qed.



Lemma sample_three_succeeds (l : list json) :
  succeeds Sample.installed "three" (JList l)
    (map (fun _ => Sample.vector3) l).
Proof.
  exists Sample.SentenceTransformer, Sample.model3. repeat split.
Qed.


Lemma sample_load_fails (texts : json) :
  failure_cause Sample.installed "fake-model" texts.
Proof. now eapply load_exception. Qed.


(** The model of three components asked for dimension 2. *)
Example dimension_two_keeps_two_components :
  run Sample.lib Sample.installed (Sample.argv Sample.hello_world "three" "2")
  = printed [[0.5; 0.25]; [0.5; 0.25]]%float.
Proof. reflexivity. Qed.

(** A negative dimension on the success path drops components from the
    end of each vector. *)
Example negative_dimension_drops_from_the_end :
  stdout (run Sample.lib Sample.installed
              (Sample.argv Sample.hello_world "three" "-1"))
  = [[[0.5; 0.25]; [0.5; 0.25]]]%float.
Proof. reflexivity. Qed.

(** ** The claims *)

(** C1, counterexample.  Two invocations that print vectors whose length
    is not the dimension argument: on the success path a model of three
    components asked for dimension 4 yields vectors of length 3; on the
    fallback path dimension -1 yields vectors of length 0. *)
Lemma output_vector_length_differs :
  (stdout (run Sample.lib Sample.installed
               (Sample.argv Sample.hello_world "three" "4"))
   = [[[0.5; 0.25; 0.125]; [0.5; 0.25; 0.125]]]%float
   /\ ~ every_vector_has_dimension Sample.lib Sample.installed
          (Sample.argv Sample.hello_world "three" "4"))
  /\
  (stdout (run Sample.lib Sample.missing
               (Sample.argv Sample.hello_world "fake-model" "-1"))
   = [[[]; []]]
   /\ ~ every_vector_has_dimension Sample.lib Sample.missing
          (Sample.argv Sample.hello_world "fake-model" "-1")).
Proof.
  split; (split; [reflexivity|]); intros H.
  - specialize (H "4"%string 4
                  [[0.5; 0.25; 0.125]; [0.5; 0.25; 0.125]]%float
                  [0.5; 0.25; 0.125]%float
                  eq_refl eq_refl (or_introl eq_refl) (or_introl eq_refl)).
    discriminate H.
  - specialize (H "-1"%string (-1) [[]; []] []
                  eq_refl eq_refl (or_introl eq_refl) (or_introl eq_refl)).
    discriminate H.
Qed.

(** C1, amended.  When the dimension argument is not negative and, on the
    success path, every vector of the model has at least that many
    components, every vector of the output has length exactly the
    dimension argument, on the fallback paths and on the success path
    alike. *)
Theorem output_vectors_have_dimension lib env argv texts name dim :
  decodes lib argv texts name dim ->
  0 <= dim ->
  at_least_dim env name texts dim ->
  every_vector_has_dimension lib env argv.
Proof.
  intros D Hdim Hlong a3 d doc v H3 Hd Hdoc Hv.
  rewrite (decodes_dimension D H3 Hd).
  destruct (run_decoded D (run_path lib env argv))
    as [[e Ho] | [(n & F & Hfit & Hn & Ho) | (vs & S & Ho)]];
    rewrite Ho in Hdoc; simpl in Hdoc.
  - contradiction.
  - destruct Hdoc as [<-|[]].
    rewrite (zero_fallback_vector _ _ _ Hv), repeat_length. lia.
  - destruct Hdoc as [<-|[]].
    apply in_map_iff in Hv. destruct Hv as (u & <- & Hu).
    pose proof (Hlong vs S) as L. rewrite Forall_forall in L.
    rewrite length_map, slice_to_length; [lia|].
    split; [exact Hdim | now apply L].
Qed.

Lemma output_vectors_have_dimension_witness :
  decodes Sample.lib (Sample.argv Sample.hello_world "three" "2")
    (JList [JStr "hello"; JStr "world"]) "three" 2
  /\ 0 <= 2
  /\ at_least_dim Sample.installed "three"
       (JList [JStr "hello"; JStr "world"]) 2
  /\ Z.of_nat (List.length [0.5; 0.25]%float) = 2.
Proof.
  assert (at_least_dim Sample.installed "three"
            (JList [JStr "hello"; JStr "world"]) 2) as L.
  { intros vs S.
    rewrite (succeeds_inj (sample_three_succeeds _) S).
    repeat constructor; discriminate. }
  refine (conj (sample_decodes "three" "2" eq_refl)
            (conj _ (conj L _))); [discriminate|].
  exact (@output_vectors_have_dimension _ _ _ _ _ _
            (sample_decodes "three" "2" eq_refl) Z.le_0_2 L
            "2"%string 2 [[0.5; 0.25]; [0.5; 0.25]]%float [0.5; 0.25]%float
            eq_refl eq_refl (or_introl eq_refl) (or_introl eq_refl)).
Defined.







(** A run prints one document and ends with status 0, or an exception
    escapes, nothing is printed and the status is 1. *)
Lemma run_shape lib env argv :
  (exists doc, run lib env argv = printed doc) \/
  (exists e, run lib env argv = crashed e).
Proof.
  destruct (run_path lib env argv); [right | left | left]; eauto.
Qed.

(** C4, counterexample.  With the library installed and a first argument
    that is not JSON, [json.loads] raises at line 10, outside any [try]:
    the process ends with status 1. *)
Lemma malformed_json_exits_nonzero :
  Sample.loads "not json" = Raises (Exn JSONDecodeError "Expecting value")
  /\ exit_status (run Sample.lib Sample.installed
                      (Sample.argv "not json" "three" "4")) = 1
  /\ uncaught (run Sample.lib Sample.installed
                   (Sample.argv "not json" "three" "4"))
     = Some (Exn JSONDecodeError "Expecting value").
Proof. repeat split. Qed.

(** C4, amended.  The exit status is 0 on every path that ends at a
    [sys.exit] call or at the end of the script, that is whenever no
    exception escapes; the only other way out is an uncaught exception,
    and then the status is 1. *)
Theorem exit_status_zero_unless_uncaught lib env argv :
  (exit_status (run lib env argv) = 0 /\
   uncaught (run lib env argv) = None) \/
  (exit_status (run lib env argv) = 1 /\
   exists e, uncaught (run lib env argv) = Some e).
Proof.
  destruct (run_shape lib env argv) as [[doc ->] | [e ->]]; simpl.
  - left. now split.
  - right. split; [reflexivity|]. now exists e.
Qed.




(** C6.  On the success path the script prints one document, and vector
    [i] of it is the first [dimension] components of the model's vector
    [i], each passed through [float].  The slice is Python's [v[:dim]]:
    for a dimension that is not negative it is the first [dim]
    components. *)
Theorem success_truncates_and_coerces lib env argv texts name dim vs :
  decodes lib argv texts name dim ->
  succeeds env name texts vs ->
  exists doc,
    stdout (run lib env argv) = [doc] /\
    (forall i, nth_error doc i =
               option_map (fun v => map py_float (slice_to v dim))
                          (nth_error vs i)) /\
    (0 <= dim ->
     forall i, nth_error doc i =
               option_map (fun v => map py_float (firstn (Z.to_nat dim) v))
                          (nth_error vs i)).
Proof.
  intros D S. rewrite (run_success D S).
  exists (truncated dim vs). split; [reflexivity|].
  split; [apply truncated_nth|].
  intros Hdim i. rewrite truncated_nth.
  destruct (nth_error vs i) as [v|]; simpl; [|reflexivity].
  now rewrite slice_to_firstn.
Qed.

Lemma success_truncates_and_coerces_witness :
  decodes Sample.lib (Sample.argv Sample.hello_world "three" "2")
    (JList [JStr "hello"; JStr "world"]) "three" 2
  /\ succeeds Sample.installed "three" (JList [JStr "hello"; JStr "world"])
       [Sample.vector3; Sample.vector3]
  /\ exists doc,
       stdout (run Sample.lib Sample.installed
                   (Sample.argv Sample.hello_world "three" "2")) = [doc] /\
       (forall i, nth_error doc i =
                  option_map (fun v => map py_float (slice_to v 2))
                             (nth_error [Sample.vector3; Sample.vector3] i)) /\
       (0 <= 2 ->
        forall i, nth_error doc i =
                  option_map (fun v => map py_float (firstn 2 v))
                             (nth_error [Sample.vector3; Sample.vector3] i)).
Proof.
  refine (conj (sample_decodes "three" "2" eq_refl)
            (conj (sample_three_succeeds _) _)).
  exact (@success_truncates_and_coerces _ _ _ _ _ _ _
            (sample_decodes "three" "2" eq_refl)
            (sample_three_succeeds _)).
Defined.





(** C8, counterexample.  With the library missing and a third argument
    that is not an integer, [int] raises inside the [ImportError]
    handler before [print] is reached: nothing is written. *)
Lemma malformed_dimension_writes_nothing :
  Sample.int "abc"
  = Raises (Exn ValueError "invalid literal for int() with base 10")
  /\ stdout (run Sample.lib Sample.missing (Sample.argv "[]" "three" "abc"))
     = []
  /\ exit_status (run Sample.lib Sample.missing
                      (Sample.argv "[]" "three" "abc")) = 1.
Proof. repeat split. Qed.

(** C8, amended.  On every invocation the script writes at most one
    document, never two; it writes exactly one precisely when the
    process exits with status 0, and none when an exception escapes. *)
Theorem output_written_at_most_once lib env argv :
  (List.length (stdout (run lib env argv)) <= 1)%nat /\
  (List.length (stdout (run lib env argv)) = 1%nat <->
   exit_status (run lib env argv) = 0).
Proof.
  destruct (run_shape lib env argv) as [[doc ->] | [e ->]]; simpl.
  - split; [lia|]. split; reflexivity.
  - split; [lia|]. split; discriminate.
Qed.



(** C10, counterexample.  The dimension [-2**63 - 1] is not positive,
    but it does not fit [Py_ssize_t]: when the constructor raises,
    [[0.0]*dim] raises [OverflowError] in the handler of line 19;
    nothing is printed and the status is 1. *)
Lemma too_negative_dimension_breaks_fallback :
  py_int Edge.lib_values "-9223372036854775809"
  = Returns (-9223372036854775809)
  /\ failure_cause Sample.installed "fake-model"
       (JList [JStr "hello"; JStr "world"])
  /\ stdout (run Edge.lib_values Sample.installed
                 (Sample.argv Sample.hello_world "fake-model"
                    "-9223372036854775809")) = []
  /\ exit_status (run Edge.lib_values Sample.installed
                      (Sample.argv Sample.hello_world "fake-model"
                         "-9223372036854775809")) = 1
  /\ uncaught (run Edge.lib_values Sample.installed
                   (Sample.argv Sample.hello_world "fake-model"
                      "-9223372036854775809")) = Some overflow.
Proof.
  refine (conj eq_refl (conj (sample_load_fails _) _)).
  repeat split.
Qed.

(** C10, amended.  The dimension is never checked for being positive:
    for a dimension [d] with [-2**63 <= d <= 0] and any list of texts
    the script runs, and on every fallback path it prints [len(texts)]
    empty vectors and exits with status 0. *)
Theorem nonpositive_dimension_gives_empty_vectors lib env argv l name dim :
  decodes lib argv (JList l) name dim ->
  PY_SSIZE_T_MIN <= dim <= 0 ->
  failure_cause env name (JList l) ->
  stdout (run lib env argv) = [repeat [] (List.length l)] /\
  exit_status (run lib env argv) = 0.
Proof.
  intros D Hdim F.
  assert (fits_ssize_t dim = true) as Hfit
      by (apply fits_ssize_t_spec; unfold PY_SSIZE_T_MAX; lia).
  rewrite (run_fallback (n := List.length l) D F Hfit eq_refl).
  unfold zero_fallback.
  replace (Z.to_nat dim) with 0%nat by lia.
  split; reflexivity.
Qed.

Lemma nonpositive_dimension_gives_empty_vectors_witness :
  decodes Sample.lib (Sample.argv Sample.hello_world "fake-model" "-1")
    (JList [JStr "hello"; JStr "world"]) "fake-model" (-1)
  /\ PY_SSIZE_T_MIN <= -1 <= 0
  /\ failure_cause Sample.installed "fake-model"
       (JList [JStr "hello"; JStr "world"])
  /\ stdout (run Sample.lib Sample.installed
                 (Sample.argv Sample.hello_world "fake-model" "-1"))
     = [[[]; []]]
  /\ exit_status (run Sample.lib Sample.installed
                      (Sample.argv Sample.hello_world "fake-model" "-1")) = 0.
Proof.
  assert (PY_SSIZE_T_MIN <= -1 <= 0) as N by (split; discriminate).
  refine (conj (sample_decodes "fake-model" "-1" eq_refl)
            (conj N (conj (sample_load_fails _) _))).
  exact (@nonpositive_dimension_gives_empty_vectors _ _ _ _ _ _
            (sample_decodes "fake-model" "-1" eq_refl) N
            (sample_load_fails _)).
Defined.

(** ** Further properties of the script *)



Lemma run_reads_three_arguments lib env argv argv' :
  nth_error argv 1 = nth_error argv' 1 ->
  nth_error argv 2 = nth_error argv' 2 ->
  nth_error argv 3 = nth_error argv' 3 ->
  main lib env argv = main lib env argv'.
Proof.
  intros H1 H2 H3. unfold main, import_block, sys_argv.
  now rewrite H1, H2, H3.
Qed.

(** X1.  The two paths read the arguments in a different order: line 8
    evaluates [int(sys.argv[3])] before [json.loads(sys.argv[1])],
    lines 10-12 the other way round.  When both arguments are malformed
    the exception that escapes is the one of [json.loads] with the
    library installed and the one of [int] with the library missing. *)
Theorem both_malformed_order lib env argv a1 a3 e1 e3 :
  nth_error argv 1 = Some a1 ->
  nth_error argv 3 = Some a3 ->
  json_loads lib a1 = Raises e1 ->
  py_int lib a3 = Raises e3 ->
  (forall ST, import_SentenceTransformer env = Returns ST ->
              uncaught (run lib env argv) = Some e1) /\
  (forall e, import_SentenceTransformer env = Raises e ->
             is_ImportError e = true ->
             uncaught (run lib env argv) = Some e3).
Proof.
  intros H1 H3 Ht Hd. split.
  - intros ST Hi. by_running.
  - intros e Hi He. by_running.
Qed.

Lemma both_malformed_order_witness :
  nth_error (Sample.argv "not json" "three" "abc") 1 = Some "not json"%string
  /\ nth_error (Sample.argv "not json" "three" "abc") 3 = Some "abc"%string
  /\ uncaught (run Sample.lib Sample.installed
                   (Sample.argv "not json" "three" "abc"))
     = Some (Exn JSONDecodeError "Expecting value")
  /\ uncaught (run Sample.lib Sample.missing
                   (Sample.argv "not json" "three" "abc"))
     = Some (Exn ValueError "invalid literal for int() with base 10").
Proof.
  refine (conj eq_refl (conj eq_refl (conj _ _))).
  - exact (proj1 (@both_malformed_order Sample.lib Sample.installed
                    (Sample.argv "not json" "three" "abc") _ _ _ _
                    eq_refl eq_refl eq_refl eq_refl)
                 Sample.SentenceTransformer eq_refl).
  - exact (proj2 (@both_malformed_order Sample.lib Sample.missing
                    (Sample.argv "not json" "three" "abc") _ _ _ _
                    eq_refl eq_refl eq_refl eq_refl)
                 _ eq_refl eq_refl).
Defined.

(** X2.  With fewer than three arguments after the script's name the
    script prints nothing and exits with status 1, on every path; with
    the library missing the exception is the [IndexError] of
    [sys.argv[3]]. *)
Theorem too_few_arguments lib env argv :
  (List.length argv < 4)%nat ->
  stdout (run lib env argv) = [] /\
  exit_status (run lib env argv) = 1 /\
  (forall e, import_SentenceTransformer env = Raises e ->
             is_ImportError e = true ->
             exists e', uncaught (run lib env argv) = Some e' /\
                        exn_cls e' = IndexError).
Proof.
  intros Hlen.
  assert (nth_error argv 3 = None) as H3 by (apply nth_error_None; lia).
  assert (forall texts name dim, ~ decodes lib argv texts name dim) as ND.
  { intros texts name dim (a1 & a3 & _ & _ & _ & G3 & _). congruence. }
  split; [|split].
  - destruct (run_path lib env argv) as [e | ? ? ? ? D | ? ? ? ? D];
      [reflexivity | destruct (ND _ _ _ D) ..].
  - destruct (run_path lib env argv) as [e | ? ? ? ? D | ? ? ? ? D];
      [reflexivity | destruct (ND _ _ _ D) ..].
  - intros e Hi He. eexists. split; [by_running | reflexivity].
Qed.

Lemma too_few_arguments_witness :
  (List.length ["minilm_embed.py"; "[]"]%string < 4)%nat
  /\ stdout (run Sample.lib Sample.installed ["minilm_embed.py"; "[]"]%string)
     = []
  /\ exit_status (run Sample.lib Sample.installed
                      ["minilm_embed.py"; "[]"]%string) = 1.
Proof.
  assert (List.length ["minilm_embed.py"; "[]"]%string < 4)%nat as L
      by (simpl; lia).
  refine (conj L _).
  pose proof (@too_few_arguments Sample.lib Sample.installed
                ["minilm_embed.py"; "[]"]%string L) as (Hout & Hexit & _).
  exact (conj Hout Hexit).
Defined.

(** X3.  Only [sys.argv[1]], [sys.argv[2]] and [sys.argv[3]] are read:
    the script's name and any further argument change nothing of what
    the caller observes. *)
Theorem only_three_arguments_matter lib env argv argv' :
  nth_error argv 1 = nth_error argv' 1 ->
  nth_error argv 2 = nth_error argv' 2 ->
  nth_error argv 3 = nth_error argv' 3 ->
  run lib env argv = run lib env argv'.
Proof.
  intros H1 H2 H3. unfold run.
  now rewrite (run_reads_three_arguments lib env argv argv' H1 H2 H3).
Qed.

Lemma only_three_arguments_matter_witness :
  run Sample.lib Sample.installed (Sample.argv Sample.hello_world "three" "2")
  = run Sample.lib Sample.installed
      ["/opt/leo/embed.py"; Sample.hello_world; "three"; "2"; "--verbose"]%string.
Proof.
  exact (@only_three_arguments_matter Sample.lib Sample.installed
           (Sample.argv Sample.hello_world "three" "2")
           ["/opt/leo/embed.py"; Sample.hello_world; "three"; "2";
            "--verbose"]%string
           eq_refl eq_refl eq_refl).
Defined.

(** X4.  With the library missing the model name is never read: two
    invocations that agree on [sys.argv[1]] and [sys.argv[3]] end the
    same way. *)
Theorem missing_library_ignores_model_name lib env argv argv' e :
  import_SentenceTransformer env = Raises e ->
  is_ImportError e = true ->
  nth_error argv 1 = nth_error argv' 1 ->
  nth_error argv 3 = nth_error argv' 3 ->
  run lib env argv = run lib env argv'.
Proof.
  intros Hi He H1 H3.
  unfold run, main, import_block, try_except, sys_argv, call.
  rewrite Hi. simpl. rewrite He, H1, H3.
  destruct (nth_error argv' 3) as [a3|]; simpl; [|reflexivity].
  destruct (py_int lib a3) as [d|ed]; simpl; [|reflexivity].
  destruct (list_mul [0%float] d) as [zeros|eo]; simpl; [|reflexivity].
  destruct (nth_error argv' 1) as [a1|]; simpl; [|reflexivity].
  destruct (json_loads lib a1) as [t|et]; simpl; [|reflexivity].
  destruct (py_len t) as [n|en]; reflexivity.
Qed.

Lemma missing_library_ignores_model_name_witness :
  import_SentenceTransformer Sample.missing
  = Raises (Exn ModuleNotFoundError "No module named sentence_transformers")
  /\ run Sample.lib Sample.missing (Sample.argv Sample.hello_world "three" "4")
     = run Sample.lib Sample.missing
         (Sample.argv Sample.hello_world "fake-model" "4").
Proof.
  refine (conj eq_refl _).
  exact (@missing_library_ignores_model_name Sample.lib Sample.missing
           (Sample.argv Sample.hello_world "three" "4")
           (Sample.argv Sample.hello_world "fake-model" "4")
           _ eq_refl eq_refl eq_refl eq_refl).
Defined.





Lemma slice_to_length_any (A : Type) (v : list A) (stop : Z) :
  Z.of_nat (List.length (slice_to v stop)) =
  if stop <? 0 then Z.max (Z.of_nat (List.length v) + stop) 0
  else Z.min stop (Z.of_nat (List.length v)).
Proof.
  unfold slice_to. rewrite length_firstn.
  destruct (Z.ltb_spec stop 0); lia.
Qed.

Lemma slice_to_prefix (A : Type) (v : list A) (stop : Z) :
  exists rest, v = slice_to v stop ++ rest.
Proof.
  unfold slice_to. eexists. symmetry. apply firstn_skipn.
Qed.

(** X7.  On the success path the document has as many vectors as
    [encode] returned, whatever [len(texts)] is, and the length of each
    is given by Python's slice: [min(dim, len(v))] for a dimension that
    is not negative, [max(len(v) + dim, 0)] for a negative one.  So a
    vector is never padded. *)
Theorem success_vector_lengths lib env argv texts name dim vs :
  decodes lib argv texts name dim ->
  succeeds env name texts vs ->
  exists doc,
    stdout (run lib env argv) = [doc] /\
    List.length doc = List.length vs /\
    forall i v out,
      nth_error vs i = Some v -> nth_error doc i = Some out ->
      Z.of_nat (List.length out) =
      if dim <? 0 then Z.max (Z.of_nat (List.length v) + dim) 0
      else Z.min dim (Z.of_nat (List.length v)).
Proof.
  intros D S. rewrite (run_success D S).
  exists (truncated dim vs). split; [reflexivity|]. split.
  - unfold truncated. apply length_map.
  - intros i v out Hv Hout. rewrite truncated_nth, Hv in Hout.
    injection Hout as <-. rewrite length_map. apply slice_to_length_any.
Qed.

Lemma success_vector_lengths_witness :
  decodes Sample.lib (Sample.argv Sample.hello_world "three" "4")
    (JList [JStr "hello"; JStr "world"]) "three" 4
  /\ succeeds Sample.installed "three" (JList [JStr "hello"; JStr "world"])
       [Sample.vector3; Sample.vector3]
  /\ exists doc,
       stdout (run Sample.lib Sample.installed
                   (Sample.argv Sample.hello_world "three" "4")) = [doc] /\
       List.length doc = 2%nat /\
       forall i v out,
         nth_error [Sample.vector3; Sample.vector3] i = Some v ->
         nth_error doc i = Some out ->
         Z.of_nat (List.length out) = Z.min 4 (Z.of_nat (List.length v)).
Proof.
  refine (conj (sample_decodes "three" "4" eq_refl)
            (conj (sample_three_succeeds _) _)).
  exact (@success_vector_lengths _ _ _ _ _ _ _
            (sample_decodes "three" "4" eq_refl)
            (sample_three_succeeds _)).
Defined.

(** X8.  Truncation only cuts: every vector printed on the success path
    is a prefix of a vector of the model passed through [float], for
    every dimension, negative ones included.  No component is reordered,
    changed or invented. *)
Theorem success_vector_is_prefix lib env argv texts name dim vs doc out :
  decodes lib argv texts name dim ->
  succeeds env name texts vs ->
  In doc (stdout (run lib env argv)) ->
  In out doc ->
  exists v rest, In v vs /\ map py_float v = out ++ rest.
Proof.
  intros D S Hdoc Hout. rewrite (run_success D S) in Hdoc.
  destruct Hdoc as [<-|[]].
  apply in_map_iff in Hout. destruct Hout as (v & <- & Hv).
  destruct (slice_to_prefix v dim) as [rest Hrest].
  exists v, (map py_float rest). split; [exact Hv|].
  rewrite <- map_app. now rewrite <- Hrest.
Qed.

Lemma success_vector_is_prefix_witness :
  decodes Sample.lib (Sample.argv Sample.hello_world "three" "-1")
    (JList [JStr "hello"; JStr "world"]) "three" (-1)
  /\ succeeds Sample.installed "three" (JList [JStr "hello"; JStr "world"])
       [Sample.vector3; Sample.vector3]
  /\ In [[0.5; 0.25]; [0.5; 0.25]]%float
        (stdout (run Sample.lib Sample.installed
                     (Sample.argv Sample.hello_world "three" "-1")))
  /\ In [0.5; 0.25]%float [[0.5; 0.25]; [0.5; 0.25]]%float
  /\ exists v rest,
       In v [Sample.vector3; Sample.vector3] /\
       map py_float v = [0.5; 0.25]%float ++ rest.
Proof.
  refine (conj (sample_decodes "three" "-1" eq_refl)
            (conj (sample_three_succeeds _)
               (conj (or_introl eq_refl) (conj (or_introl eq_refl) _)))).
  exact (@success_vector_is_prefix _ _ _ _ _ _ _ _ _
            (sample_decodes "three" "-1" eq_refl)
            (sample_three_succeeds _)
            (or_introl eq_refl) (or_introl eq_refl)).
Defined.

(** X9.  A dimension at least as large as every vector of the model
    cuts nothing: the script prints the model's vectors whole, each
    component passed through [float]. *)
Theorem large_dimension_keeps_vectors lib env argv texts name dim vs :
  decodes lib argv texts name dim ->
  succeeds env name texts vs ->
  Forall (fun v => Z.of_nat (List.length v) <= dim) vs ->
  stdout (run lib env argv) = [map (map py_float) vs].
Proof.
  intros D S Hbig. rewrite (run_success D S). simpl. f_equal.
  unfold truncated. apply map_ext_in. intros v Hv.
  rewrite Forall_forall in Hbig. specialize (Hbig v Hv).
  rewrite slice_to_firstn by lia.
  rewrite firstn_all2 by lia. reflexivity.
Qed.

Lemma large_dimension_keeps_vectors_witness :
  decodes Sample.lib (Sample.argv Sample.hello_world "three" "4")
    (JList [JStr "hello"; JStr "world"]) "three" 4
  /\ succeeds Sample.installed "three" (JList [JStr "hello"; JStr "world"])
       [Sample.vector3; Sample.vector3]
  /\ Forall (fun v : list np_float32 => Z.of_nat (List.length v) <= 4)
       [Sample.vector3; Sample.vector3]
  /\ stdout (run Sample.lib Sample.installed
                 (Sample.argv Sample.hello_world "three" "4"))
     = [[[0.5; 0.25; 0.125]; [0.5; 0.25; 0.125]]]%float.
Proof.
  assert (Forall (fun v : list np_float32 => Z.of_nat (List.length v) <= 4)
            [Sample.vector3; Sample.vector3]) as B
      by (repeat constructor; discriminate).
  refine (conj (sample_decodes "three" "4" eq_refl)
            (conj (sample_three_succeeds _) (conj B _))).
  exact (@large_dimension_keeps_vectors _ _ _ _ _ _ _
            (sample_decodes "three" "4" eq_refl)
            (sample_three_succeeds _) B).
Defined.



(** X11.  Only [ImportError] is caught at line 7: an import that raises
    anything else (a library that is installed but broken) is not turned
    into the zero fallback.  The exception escapes, nothing is printed
    and the status is 1, even for arguments that are well formed. *)
Theorem broken_import_escapes lib env argv e :
  import_SentenceTransformer env = Raises e ->
  is_ImportError e = false ->
  stdout (run lib env argv) = [] /\
  exit_status (run lib env argv) = 1 /\
  uncaught (run lib env argv) = Some e.
Proof.
  intros Hi He. rewrite (run_import_crash lib env argv Hi He).
  repeat split.
Qed.

Lemma broken_import_escapes_witness :
  import_SentenceTransformer Edge.broken
  = Raises (Exn (OtherException "OSError") "cannot open shared object file")
  /\ is_ImportError
       (Exn (OtherException "OSError") "cannot open shared object file")
     = false
  /\ stdout (run Sample.lib Edge.broken
                 (Sample.argv Sample.hello_world "three" "4")) = []
  /\ exit_status (run Sample.lib Edge.broken
                      (Sample.argv Sample.hello_world "three" "4")) = 1
  /\ uncaught (run Sample.lib Edge.broken
                   (Sample.argv Sample.hello_world "three" "4"))
     = Some (Exn (OtherException "OSError") "cannot open shared object file").
Proof.
  refine (conj eq_refl (conj eq_refl _)).
  exact (@broken_import_escapes Sample.lib Edge.broken
           (Sample.argv Sample.hello_world "three" "4") _ eq_refl eq_refl).
Defined.


(** X13.  A model that returns zeros, at least [dim] of them for each
    of the [n] texts, makes the script print the very document of the
    fallback: the two cases cannot be told apart from the output. *)
Theorem zero_model_prints_fallback lib env argv texts name dim n k :
  decodes lib argv texts name dim ->
  0 <= dim <= Z.of_nat k ->
  succeeds env name texts (repeat (repeat (F32 0%float) k) n) ->
  stdout (run lib env argv) = [repeat (repeat 0%float (Z.to_nat dim)) n] /\
  exit_status (run lib env argv) = 0 /\
  uncaught (run lib env argv) = None.
Proof.
  intros D Hdim S. rewrite (run_success D S). simpl.
  unfold truncated. rewrite map_repeat, slice_to_firstn by lia.
  rewrite firstn_repeat by lia. rewrite map_repeat.
  repeat split.
Qed.

Lemma zero_model_prints_fallback_witness :
  decodes Sample.lib (Sample.argv Sample.hello_world "any" "2")
    (JList [JStr "hello"; JStr "world"]) "any" 2
  /\ 0 <= 2 <= Z.of_nat 3
  /\ succeeds Edge.zeros_installed "any" (JList [JStr "hello"; JStr "world"])
       (repeat (repeat (F32 0%float) 3) 2)
  /\ stdout (run Sample.lib Edge.zeros_installed
                 (Sample.argv Sample.hello_world "any" "2"))
     = stdout (run Sample.lib Sample.missing
                   (Sample.argv Sample.hello_world "any" "2")).
Proof.
  assert (0 <= 2 <= Z.of_nat 3) as B by (split; discriminate).
  assert (succeeds Edge.zeros_installed "any"
            (JList [JStr "hello"; JStr "world"])
            (repeat (repeat (F32 0%float) 3) 2)) as S
      by (exists (fun _ => Returns Edge.zero_model), Edge.zero_model;
          repeat split).
  refine (conj (sample_decodes "any" "2" eq_refl) (conj B (conj S _))).
  exact (proj1 (@zero_model_prints_fallback _ _ _ _ _ _ _ _
                  (sample_decodes "any" "2" eq_refl) B S)).
Defined.

(** X14.  Dimensions nest: for the same texts and model, the document
    printed for a dimension [d1] is the document printed for a larger
    dimension [d2] with every vector cut to its first [d1] components
    (both dimensions not negative). *)
Theorem smaller_dimension_is_prefix
    lib env argv1 argv2 texts name d1 d2 vs :
  decodes lib argv1 texts name d1 ->
  decodes lib argv2 texts name d2 ->
  succeeds env name texts vs ->
  0 <= d1 <= d2 ->
  exists doc2,
    stdout (run lib env argv2) = [doc2] /\
    stdout (run lib env argv1) = [map (firstn (Z.to_nat d1)) doc2].
Proof.
  intros D1 D2 S Hd.
  rewrite (run_success D1 S), (run_success D2 S).
  exists (truncated d2 vs). split; [reflexivity|]. simpl. f_equal.
  unfold truncated. rewrite map_map. apply map_ext. intros v.
  rewrite !slice_to_firstn by lia.
  rewrite firstn_map, firstn_firstn.
  now replace (Nat.min (Z.to_nat d1) (Z.to_nat d2)) with (Z.to_nat d1) by lia.
Qed.

Lemma smaller_dimension_is_prefix_witness :
  decodes Sample.lib (Sample.argv Sample.hello_world "three" "2")
    (JList [JStr "hello"; JStr "world"]) "three" 2
  /\ decodes Sample.lib (Sample.argv Sample.hello_world "three" "4")
       (JList [JStr "hello"; JStr "world"]) "three" 4
  /\ succeeds Sample.installed "three" (JList [JStr "hello"; JStr "world"])
       [Sample.vector3; Sample.vector3]
  /\ 0 <= 2 <= 4
  /\ exists doc2,
       stdout (run Sample.lib Sample.installed
                   (Sample.argv Sample.hello_world "three" "4")) = [doc2] /\
       stdout (run Sample.lib Sample.installed
                   (Sample.argv Sample.hello_world "three" "2"))
       = [map (firstn 2) doc2].
Proof.
  assert (0 <= 2 <= 4) as B by (split; discriminate).
  refine (conj (sample_decodes "three" "2" eq_refl)
            (conj (sample_decodes "three" "4" eq_refl)
               (conj (sample_three_succeeds _) (conj B _)))).
  exact (@smaller_dimension_is_prefix _ _ _ _ _ _ _ _ _
            (sample_decodes "three" "2" eq_refl)
            (sample_decodes "three" "4" eq_refl)
            (sample_three_succeeds _) B).
Defined.
